(** * A calendar date value type: validation, rendering, comparison,
      leap years and the ordinal day of the year.

    Shallow embedding of [src/main.py] (class [Date]) and the properties
    its specification states about it. *)

From Stdlib Require Import ZArith Lia Bool List String Ascii.
From Stdlib Require Import Floats.SpecFloat.
Import ListNotations.

Local Open Scope string_scope.
Local Open Scope Z_scope.

(** ** Python objects

    The constructor receives arbitrary objects and the comparison methods
    receive an arbitrary [other], so the embedding needs a universe of
    objects.  [isinstance(x, int)] holds for plain ints and for the two
    bools ([bool] is a subclass of [int]); arithmetic, [==], [<] and [in]
    on such objects go through their integer value, while [str] and the
    default format of a bool give its name. *)

Inductive int_obj : Type :=
| PyInt (n : Z)
| PyBool (b : bool).

Definition int_value (i : int_obj) : Z :=
  match i with
  | PyInt n => n
  | PyBool true => 1
  | PyBool false => 0
  end.

(** An instance of the class: the three attributes set by [__init__]. *)
Record Date : Type := mkDate {
  _day : int_obj;
  _month : int_obj;
  _year : int_obj
}.

Inductive object : Type :=
| Int (i : int_obj)
| Float (f : spec_float)
| Str (s : string)
| NoneObj
| Tuple (l : list int_obj)
| DateObj (d : Date).

(** [isinstance(x, int)], returning the int instance when it holds. *)
Definition as_int (x : object) : option int_obj :=
  match x with
  | Int i => Some i
  | _ => None
  end.

(** [isinstance(x, Date)], returning the instance when it holds. *)
Definition as_Date (x : object) : option Date :=
  match x with
  | DateObj d => Some d
  | _ => None
  end.

(** ** Exceptions and results *)

Inductive exception : Type :=
| TypeError (msg : string)
| ValueError (msg : string).

Inductive result (A : Type) : Type :=
| Ok (a : A)
| Raise (e : exception).
Arguments Ok {A} a.
Arguments Raise {A} e.

Definition bind {A B : Type} (r : result A) (k : A -> result B) : result B :=
  match r with
  | Ok a => k a
  | Raise e => Raise e
  end.

Notation "x <- r ;; k" := (bind r (fun x => k))
  (at level 61, r at next level, right associativity).

(** ** Decimal text of integers

    [str(n)] of a plain int.  The digits are produced least significant
    first and pushed in front of an accumulator; the fuel is the bit length
    of the number, which is never less than its number of decimal digits. *)

Definition digit_char (d : Z) : ascii := ascii_of_nat (48 + Z.to_nat d).

Fixpoint digits_onto (fuel : nat) (n : Z) (acc : string) : string :=
  match fuel with
  | O => acc
  | S k =>
      let acc' := String (digit_char (n mod 10)) acc in
      if n <? 10 then acc' else digits_onto k (n / 10) acc'
  end.

Definition str_nonneg (n : Z) : string :=
  digits_onto (S (Z.to_nat (Z.log2 n))) n "".

Definition str_int (n : Z) : string :=
  if n <? 0 then "-" ++ str_nonneg (- n) else str_nonneg n.

(** [str(x)], which is also what a replacement field without a format
    spec, [{x}], puts in an f-string. *)
Definition str_obj (i : int_obj) : string :=
  match i with
  | PyInt n => str_int n
  | PyBool true => "True"
  | PyBool false => "False"
  end.

Fixpoint zeros (k : nat) : string :=
  match k with
  | O => ""
  | S k' => String "0" (zeros k')
  end.

(** The format spec [0{width}d]: decimal digits, zero filled after the sign
    up to a total of [width] characters, never truncated.  It applies to
    the integer value, so a bool is printed as 0 or 1. *)
Definition format_0d (width : nat) (i : int_obj) : string :=
  let n := int_value i in
  if n <? 0 then
    let ds := str_nonneg (- n) in
    "-" ++ zeros (width - 1 - String.length ds) ++ ds
  else
    let ds := str_nonneg n in
    zeros (width - String.length ds) ++ ds.

(** ** Tuples of ints: [==], [<] and [>]

    Python compares tuples item by item: the first pair of items that are
    not [==] decides, and when there is none the lengths decide. *)

Fixpoint tuple_eq (a b : list int_obj) : bool :=
  match a, b with
  | [], [] => true
  | x :: a', y :: b' => (int_value x =? int_value y) && tuple_eq a' b'
  | _, _ => false
  end.

Fixpoint tuple_lt (a b : list int_obj) : bool :=
  match a, b with
  | x :: a', y :: b' =>
      if int_value x =? int_value y then tuple_lt a' b'
      else int_value x <? int_value y
  | [], _ :: _ => true
  | _, [] => false
  end.

Fixpoint tuple_gt (a b : list int_obj) : bool :=
  match a, b with
  | x :: a', y :: b' =>
      if int_value x =? int_value y then tuple_gt a' b'
      else int_value x >? int_value y
  | _ :: _, [] => true
  | [], _ => false
  end.

(** ** The methods of [Date]

    [leap_year] and [days_in_month] take [self] but never read it, and
    [__init__] calls [days_in_month] before any attribute is set; they are
    functions of their explicit arguments.  Their parameters are annotated
    [int]: they are given here on the integer value of the argument. *)

(** [year % 4], [% 100], [% 400]: Python's [%] with a positive divisor is
    the floored remainder, as [Z.modulo]. *)
Definition leap_year (year : Z) : bool :=
  if negb (year mod 4 =? 0) then false
  else if (year mod 100 =? 0) && negb (year mod 400 =? 0) then false
  else true.

(** [x in (a, b, ...)] on ints. *)
Definition py_in (x : Z) (t : list Z) : bool := existsb (Z.eqb x) t.

Definition days_in_month (month year : Z) : result Z :=
  if py_in month [1; 3; 5; 7; 8; 10; 12] then Ok 31
  else if py_in month [4; 6; 9; 11] then Ok 30
  else if month =? 2 then Ok (if leap_year year then 29 else 28)
  else Raise (ValueError "Invalid month").

Definition day_error_message (day month year : int_obj) : string :=
  "Day " ++ str_obj day ++ " is not valid for month " ++ str_obj month
  ++ " and year " ++ str_obj year ++ ".".

(** The exceptions of the constructor, one per check. *)
Definition day_type_error : exception :=
  TypeError "Day cannot be a non-integer number!".
Definition month_type_error : exception :=
  TypeError "Month cannot be a non-integer number!".
Definition year_type_error : exception :=
  TypeError "Year cannot be a non-integer number!".
Definition year_range_error : exception :=
  ValueError "There is no such thing as a negative year...".
Definition month_range_error : exception :=
  ValueError "Only 12 months.".
Definition day_range_error (d m y : int_obj) : exception :=
  ValueError (day_error_message d m y).

(** [Date(day, month, year)]: the checks of [__init__] in the order of the
    source.  [1 <= day <= days_in_month(...)] is a chained comparison: the
    call on the right is made only when [1 <= day] holds. *)
Definition __init__ (day month year : object) : result Date :=
  match as_int day with
  | None => Raise day_type_error
  | Some d =>
  match as_int month with
  | None => Raise month_type_error
  | Some m =>
  match as_int year with
  | None => Raise year_type_error
  | Some y =>
      if int_value y <? 1 then
        Raise year_range_error
      else if negb ((1 <=? int_value m) && (int_value m <=? 12)) then
        Raise month_range_error
      else if 1 <=? int_value d then
        n <- days_in_month (int_value m) (int_value y) ;;
        if int_value d <=? n then Ok (mkDate d m y)
        else Raise (day_range_error d m y)
      else Raise (day_range_error d m y)
  end end end.

Definition __str__ (self : Date) : string :=
  format_0d 2 (_day self) ++ "/" ++ format_0d 2 (_month self) ++ "/"
  ++ str_obj (_year self).

Definition __eq__ (self : Date) (other : object) : bool :=
  match as_Date other with
  | None => false
  | Some o =>
      tuple_eq [_day self; _month self; _year self]
               [_day o; _month o; _year o]
  end.

Definition __lt__ (self : Date) (other : object) : bool :=
  match as_Date other with
  | None => false
  | Some o =>
      tuple_lt [_year self; _month self; _day self]
               [_year o; _month o; _day o]
  end.

Definition __gt__ (self : Date) (other : object) : bool :=
  match as_Date other with
  | None => false
  | Some o =>
      tuple_gt [_year self; _month self; _day self]
               [_year o; _month o; _day o]
  end.

Definition __le__ (self : Date) (other : object) : bool :=
  match as_Date other with
  | None => false
  | Some o =>
      tuple_lt [_year self; _month self; _day self]
               [_year o; _month o; _day o]
      || tuple_eq [_year self; _month self; _day self]
                  [_year o; _month o; _day o]
  end.

(** [l[:k]]: the first [k] items, or all but the last [-k] when [k] is
    negative; out-of-range bounds are clamped. *)
Definition slice_to {A : Type} (l : list A) (k : Z) : list A :=
  if k <? 0 then firstn (Z.to_nat (Z.of_nat (List.length l) + k)) l
  else firstn (Z.to_nat k) l.

(** The builtin [sum] on a list of ints. *)
Definition py_sum (l : list Z) : Z := fold_left Z.add l 0.

Definition day_of_year (self : Date) : Z :=
  let days_in_months :=
    [31; if leap_year (int_value (_year self)) then 29 else 28; 31; 30; 31; 30;
     31; 31; 30; 31; 30; 31] in
  py_sum (slice_to days_in_months (int_value (_month self) - 1))
  + int_value (_day self).

(** ** Notions of the specification *)

(** A date object that some call of the constructor returned. *)
Definition constructed (dt : Date) : Prop :=
  exists day month year, __init__ day month year = Ok dt.

(** The validity invariant of the data model: year at least 1, month in
    1..12, day in 1..[days_in_month(month, year)]. *)
Definition valid_triple (d m y : Z) : Prop :=
  1 <= y /\ 1 <= m <= 12 /\
  exists n, days_in_month m y = Ok n /\ 1 <= d <= n.

Definition valid_date (dt : Date) : Prop :=
  valid_triple (int_value (_day dt)) (int_value (_month dt))
               (int_value (_year dt)).

(** The Gregorian rule in terms of divisibility. *)
Definition gregorian_leap (y : Z) : Prop :=
  (4 | y) /\ (~ (100 | y) \/ (400 | y)).

(** Months strictly before [month], and the sum of their lengths in
    [year] as [days_in_month] gives them. *)
Definition months_before (month : Z) : list Z :=
  map Z.of_nat (seq 1 (Z.to_nat (month - 1))).

Fixpoint sum_results (l : list (result Z)) : result Z :=
  match l with
  | [] => Ok 0
  | r :: l' => x <- r ;; s <- sum_results l' ;; Ok (x + s)
  end.

Definition days_before (month year : Z) : result Z :=
  sum_results (map (fun k => days_in_month k year) (months_before month)).

Definition year_length (year : Z) : Z :=
  if leap_year year then 366 else 365.

(** [Date(d, m, y).day_of_year()] on plain ints. *)
Definition day_of_year_of (d m y : Z) : result Z :=
  dt <- __init__ (Int (PyInt d)) (Int (PyInt m)) (Int (PyInt y)) ;;
  Ok (day_of_year dt).

(** A number below 100 written with exactly two digits. *)
Definition two_digits (n : Z) : string :=
  String (digit_char (n / 10)) (String (digit_char (n mod 10)) "").

(** Reading a string of decimal digits, most significant first. *)
Definition digit_of_char (c : ascii) : Z := Z.of_nat (nat_of_ascii c) - 48.

Fixpoint digits_value (s : string) (acc : Z) : Z :=
  match s with
  | EmptyString => acc
  | String c s' => digits_value s' (10 * acc + digit_of_char c)
  end.

Definition decimal_value (s : string) : Z := digits_value s 0.

Definition is_digit (c : ascii) : bool :=
  (48 <=? nat_of_ascii c)%nat && (nat_of_ascii c <=? 57)%nat.

Fixpoint all_digits (s : string) : bool :=
  match s with
  | EmptyString => true
  | String c s' => is_digit c && all_digits s'
  end.

Definition starts_nonzero (s : string) : bool :=
  match s with
  | EmptyString => false
  | String c _ => negb (Ascii.eqb c "0")
  end.

(** [s] is the plain decimal form of the positive number [n]: digits only,
    no leading zero, no padding, and it reads back as [n]. *)
Definition plain_decimal (s : string) (n : Z) : Prop :=
  all_digits s = true /\ starts_nonzero s = true /\ decimal_value s = n.

(** The lexicographic order on the key (year, month, day). *)
Definition key_lt (a b : Date) : Prop :=
  let ya := int_value (_year a) in let yb := int_value (_year b) in
  let ma := int_value (_month a) in let mb := int_value (_month b) in
  let da := int_value (_day a) in let db := int_value (_day b) in
  ya < yb \/ (ya = yb /\ (ma < mb \/ (ma = mb /\ da < db))).

(** The fields of two dates are pairwise [==]. *)
Definition same_fields (a b : Date) : Prop :=
  int_value (_day a) = int_value (_day b) /\
  int_value (_month a) = int_value (_month b) /\
  int_value (_year a) = int_value (_year b).

(** ** The module body: the demonstration driver

    The four [try] blocks are under [if __name__ == "__main__":]; the
    eight [print] statements after them are at module level and run
    whenever the module body runs.  A run keeps the module's name
    bindings and the lines printed so far; it ends normally or with an
    uncaught exception.  [except ValueError] catches a [ValueError] and
    nothing else; reading a name that was never assigned raises
    [NameError]. *)

Inductive raised : Type :=
| DateError (e : exception)
| NameError (name : string).

Record world : Type := mkWorld {
  bound : list (string * Date);
  printed : list string
}.

Inductive run_result (A : Type) : Type :=
| Returned (a : A) (w : world)
| Uncaught (e : raised) (w : world).
Arguments Returned {A} a w.
Arguments Uncaught {A} e w.

Definition prog (A : Type) : Type := world -> run_result A.

Definition prog_ret {A : Type} (a : A) : prog A := fun w => Returned a w.

Definition prog_bind {A B : Type} (p : prog A) (k : A -> prog B) : prog B :=
  fun w =>
    match p w with
    | Returned a w' => k a w'
    | Uncaught e w' => Uncaught e w'
    end.

Notation "x <<- p ;; k" := (prog_bind p (fun x => k))
  (at level 61, p at next level, right associativity).
Notation "p ;;; k" := (prog_bind p (fun _ => k))
  (at level 61, right associativity).

(** [print(label, x)] with [x] already turned into text: one line, the two
    parts separated by a space. *)
Definition print (label text : string) : prog unit :=
  fun w =>
    Returned tt (mkWorld (bound w) (printed w ++ [label ++ " " ++ text])).

Definition assign (name : string) (d : Date) : prog unit :=
  fun w => Returned tt (mkWorld ((name, d) :: bound w) (printed w)).

Fixpoint lookup_name (name : string) (l : list (string * Date))
  : option Date :=
  match l with
  | [] => None
  | (k, d) :: l' => if String.eqb k name then Some d else lookup_name name l'
  end.

Definition read (name : string) : prog Date :=
  fun w =>
    match lookup_name name (bound w) with
    | Some d => Returned d w
    | None => Uncaught (NameError name) w
    end.

(** A call of a method that can raise, outside any [try]. *)
Definition call {A : Type} (r : result A) : prog A :=
  fun w =>
    match r with
    | Ok a => Returned a w
    | Raise e => Uncaught (DateError e) w
    end.

Definition str_bool (b : bool) : string := if b then "True" else "False".

(** One [try] block of the driver:
    [try: name = Date(d, m, y); print("name:", name)]
    [except ValueError as e: print("Error creating name:", e)]. *)
Definition create_and_report (name : string) (d m y : Z) : prog unit :=
  match __init__ (Int (PyInt d)) (Int (PyInt m)) (Int (PyInt y)) with
  | Ok dt =>
      assign name dt ;;; v <<- read name ;; print (name ++ ":") (__str__ v)
  | Raise (ValueError msg) => print ("Error creating " ++ name ++ ":") msg
  | Raise e => fun w => Uncaught (DateError e) w
  end.

Definition main_block : prog unit :=
  create_and_report "data1" 28 9 2007 ;;;
  create_and_report "data2" 3 11 1986 ;;;
  create_and_report "data3" 22 11 2002 ;;;
  create_and_report "data4" 31 2 2020.

Definition report_block : prog unit :=
  (a <<- read "data1" ;; b <<- read "data2" ;;
   print "data1 == data2:" (str_bool (__eq__ a (DateObj b)))) ;;;
  (a <<- read "data1" ;; b <<- read "data2" ;;
   print "data1 < data2:" (str_bool (__lt__ a (DateObj b)))) ;;;
  (a <<- read "data1" ;; b <<- read "data2" ;;
   print "data1 > data2:" (str_bool (__gt__ a (DateObj b)))) ;;;
  (a <<- read "data1" ;; b <<- read "data2" ;;
   print "data1 <= data2:" (str_bool (__le__ a (DateObj b)))) ;;;
  (a <<- read "data1" ;;
   print "data1 leap year:" (str_bool (leap_year (int_value (_year a))))) ;;;
  (b <<- read "data2" ;;
   print "data2 leap year:" (str_bool (leap_year (int_value (_year b))))) ;;;
  (a <<- read "data1" ;;
   n <<- call (days_in_month (int_value (_month a)) (int_value (_year a))) ;;
   print "Days in month for data1:" (str_int n)) ;;;
  (a <<- read "data1" ;;
   print "Day of year for data1:" (str_int (day_of_year a))).

(** The module body; [is_main] is the value of [__name__ == "__main__"]. *)
Definition module_body (is_main : bool) : prog unit :=
  (if is_main then main_block else prog_ret tt) ;;; report_block.

Definition run_module (is_main : bool) : run_result unit :=
  module_body is_main (mkWorld [] []).

(** ** The demonstration driver's dates *)

Example demo_data1 :
  __init__ (Int (PyInt 28)) (Int (PyInt 9)) (Int (PyInt 2007))
  = Ok (mkDate (PyInt 28) (PyInt 9) (PyInt 2007)).
Proof. reflexivity. Qed.

Example demo_data4 :
  __init__ (Int (PyInt 31)) (Int (PyInt 2)) (Int (PyInt 2020))
  = Raise (ValueError "Day 31 is not valid for month 2 and year 2020.").
Proof. reflexivity. Qed.

Example demo_str :
  __str__ (mkDate (PyInt 3) (PyInt 11) (PyInt 1986)) = "03/11/1986".
Proof. reflexivity. Qed.

Example demo_day_of_year :
  day_of_year (mkDate (PyInt 28) (PyInt 9) (PyInt 2007)) = 271.
Proof. reflexivity. Qed.

Example demo_comparisons :
  let data1 := mkDate (PyInt 28) (PyInt 9) (PyInt 2007) in
  let data2 := mkDate (PyInt 3) (PyInt 11) (PyInt 1986) in
  (__eq__ data1 (DateObj data2), __lt__ data1 (DateObj data2),
   __gt__ data1 (DateObj data2), __le__ data1 (DateObj data2))
  = (false, false, true, false).
Proof. reflexivity. Qed.

(** ** Leap years *)

Lemma mod_zero_divide (y k : Z) : 0 < k -> (y mod k =? 0) = true <-> (k | y).
Proof.
  intros Hk. rewrite Z.eqb_eq.
  split; intros H; apply (Z.mod_divide y k); try lia; exact H.
Qed.

(** C2: for every integer year, negative and zero included, [leap_year]
    answers true exactly when the year is divisible by 4 and either not
    divisible by 100 or divisible by 400; 2000 and 2024 are leap years,
    1900 and 2023 are not. *)
Theorem leap_year_gregorian :
  (forall y : Z, leap_year y = true <-> gregorian_leap y)
  /\ leap_year 2000 = true /\ leap_year 1900 = false
  /\ leap_year 2024 = true /\ leap_year 2023 = false.
Proof.
  split; [| repeat split; reflexivity].
  intros y. unfold leap_year, gregorian_leap.
  rewrite <- (mod_zero_divide y 4), <- (mod_zero_divide y 100),
          <- (mod_zero_divide y 400) by lia.
  destruct (y mod 4 =? 0), (y mod 100 =? 0), (y mod 400 =? 0); simpl;
    intuition congruence.
Qed.

(** ** Days in a month *)

Ltac case_eqb :=
  match goal with
  | |- context [Z.eqb ?a ?b] => destruct (Z.eqb_spec a b); simpl
  end.

Lemma days_in_month_in_range (month year : Z) :
  1 <= month <= 12 ->
  exists n, days_in_month month year = Ok n /\ 28 <= n <= 31.
Proof.
  intros Hm. unfold days_in_month, py_in. simpl.
  repeat (case_eqb; [eexists; split; [reflexivity | lia] |]).
  case_eqb; [| lia].
  eexists; split; [reflexivity | destruct (leap_year year); lia].
Qed.

Lemma days_in_month_out_of_range (month year : Z) :
  ~ (1 <= month <= 12) ->
  days_in_month month year = Raise (ValueError "Invalid month").
Proof.
  intros Hm. unfold days_in_month, py_in. simpl.
  repeat (case_eqb; [lia |]). reflexivity.
Qed.

(** C3: for every integer year, [days_in_month] gives 31 for the months
    1, 3, 5, 7, 8, 10 and 12, 30 for 4, 6, 9 and 11, and for month 2 it
    gives 29 when [leap_year(year)] is true and 28 otherwise; it raises,
    and then a [ValueError], exactly when the month is outside 1..12. *)
Theorem days_in_month_table (month year : Z) :
  (In month [1; 3; 5; 7; 8; 10; 12] -> days_in_month month year = Ok 31)
  /\ (In month [4; 6; 9; 11] -> days_in_month month year = Ok 30)
  /\ (month = 2 -> leap_year year = true ->
      days_in_month month year = Ok 29)
  /\ (month = 2 -> leap_year year = false ->
      days_in_month month year = Ok 28)
  /\ ((exists msg, days_in_month month year = Raise (ValueError msg))
      <-> ~ (1 <= month <= 12))
  /\ (forall e, days_in_month month year = Raise e ->
      exists msg, e = ValueError msg).
Proof.
  repeat split.
  - simpl. intros H.
    repeat (destruct H as [H | H]; [subst month; reflexivity |]).
    contradiction.
  - simpl. intros H.
    repeat (destruct H as [H | H]; [subst month; reflexivity |]).
    contradiction.
  - intros -> Hl. unfold days_in_month. simpl. now rewrite Hl.
  - intros -> Hl. unfold days_in_month. simpl. now rewrite Hl.
  - intros [msg Hr] Hm.
    destruct (days_in_month_in_range month year Hm) as (n & Hn & _).
    congruence.
  - intros Hm. eexists. now apply days_in_month_out_of_range.
  - intros e He.
    destruct (Z_le_dec 1 month) as [H1 | H1];
      [destruct (Z_le_dec month 12) as [H2 | H2] |].
    + destruct (days_in_month_in_range month year (conj H1 H2))
        as (n & Hn & _). congruence.
    + rewrite days_in_month_out_of_range in He by lia.
      injection He as <-. now eexists.
    + rewrite days_in_month_out_of_range in He by lia.
      injection He as <-. now eexists.
Qed.

Lemma days_in_month_table_witness :
  days_in_month 7 2023 = Ok 31 /\ days_in_month 11 2023 = Ok 30
  /\ days_in_month 2 2024 = Ok 29 /\ days_in_month 2 1900 = Ok 28
  /\ (exists msg, days_in_month 13 2023 = Raise (ValueError msg))
  /\ (exists msg, ValueError "Invalid month" = ValueError msg).
Proof.
  split; [| split; [| split; [| split; [| split]]]].
  - apply (proj1 (days_in_month_table 7 2023)). simpl. tauto.
  - apply (proj1 (proj2 (days_in_month_table 11 2023))). simpl. tauto.
  - apply (proj1 (proj2 (proj2 (days_in_month_table 2 2024))));
      reflexivity.
  - apply (proj1 (proj2 (proj2 (proj2 (days_in_month_table 2 1900)))));
      reflexivity.
  - apply (proj1 (proj2 (proj2 (proj2 (proj2 (days_in_month_table 13 2023)))))).
    lia.
  - apply (proj2 (proj2 (proj2 (proj2 (proj2 (days_in_month_table 0 2023))))) _).
    reflexivity.
Defined.

(** ** Construction *)

Lemma init_ok_inv (day month year : object) (dt : Date) :
  __init__ day month year = Ok dt ->
  exists d m y,
    day = Int d /\ month = Int m /\ year = Int y /\ dt = mkDate d m y
    /\ valid_triple (int_value d) (int_value m) (int_value y).
Proof.
  unfold __init__.
  destruct day as [d | | | | |]; simpl; try discriminate.
  destruct month as [m | | | | |]; simpl; try discriminate.
  destruct year as [y | | | | |]; simpl; try discriminate.
  destruct (Z.ltb_spec (int_value y) 1); try discriminate.
  destruct (Z.leb_spec 1 (int_value m)); simpl; try discriminate.
  destruct (Z.leb_spec (int_value m) 12); simpl; try discriminate.
  destruct (Z.leb_spec 1 (int_value d)); try discriminate.
  destruct (days_in_month (int_value m) (int_value y)) as [n | e] eqn:Hn;
    simpl; try discriminate.
  destruct (Z.leb_spec (int_value d) n); try discriminate.
  intros [= <-]. exists d, m, y.
  do 4 (split; [reflexivity |]).
  split; [lia |]. split; [lia |].
  exists n. split; [exact Hn | lia].
Qed.

Lemma init_valid (d m y : int_obj) :
  valid_triple (int_value d) (int_value m) (int_value y) ->
  __init__ (Int d) (Int m) (Int y) = Ok (mkDate d m y).
Proof.
  intros (Hy & Hm & n & Hn & Hd). unfold __init__. simpl.
  destruct (Z.ltb_spec (int_value y) 1); [lia |].
  destruct (Z.leb_spec 1 (int_value m)); [| lia].
  destruct (Z.leb_spec (int_value m) 12); [| lia]. simpl.
  destruct (Z.leb_spec 1 (int_value d)); [| lia].
  rewrite Hn. simpl.
  destruct (Z.leb_spec (int_value d) n); [reflexivity | lia].
Qed.

Lemma constructed_valid (dt : Date) : constructed dt -> valid_date dt.
Proof.
  intros (day & month & year & H).
  apply init_ok_inv in H as (d & m & y & _ & _ & _ & -> & Hv). exact Hv.
Qed.

(** C1: whenever the constructor returns a date, the date holds exactly
    the three arguments, its year is at least 1, its month is within 1..12
    and its day is within 1..[days_in_month(month, year)]; no date with an
    invalid triple comes out of a successful construction. *)
Theorem constructed_date_invariant (day month year : object) (dt : Date) :
  __init__ day month year = Ok dt ->
  day = Int (_day dt) /\ month = Int (_month dt) /\ year = Int (_year dt)
  /\ 1 <= int_value (_year dt)
  /\ 1 <= int_value (_month dt) <= 12
  /\ exists n,
       days_in_month (int_value (_month dt)) (int_value (_year dt)) = Ok n
       /\ 1 <= int_value (_day dt) <= n.
Proof.
  intros H.
  apply init_ok_inv in H
    as (d & m & y & -> & -> & -> & -> & Hy & Hm & n & Hn & Hd).
  simpl. do 3 (split; [reflexivity |]).
  split; [lia |]. split; [lia |].
  exists n. split; [exact Hn | lia].
Qed.

Lemma constructed_date_invariant_witness :
  let dt := mkDate (PyInt 29) (PyInt 2) (PyInt 2020) in
  1 <= int_value (_year dt)
  /\ 1 <= int_value (_month dt) <= 12
  /\ exists n,
       days_in_month (int_value (_month dt)) (int_value (_year dt)) = Ok n
       /\ 1 <= int_value (_day dt) <= n.
Proof.
  apply (constructed_date_invariant
           (Int (PyInt 29)) (Int (PyInt 2)) (Int (PyInt 2020))).
  reflexivity.
Defined.

(** *** Order of the checks *)

Lemma init_day_not_int (day month year : object) :
  as_int day = None -> __init__ day month year = Raise day_type_error.
Proof. intros H. unfold __init__. now rewrite H. Qed.

Lemma init_month_not_int (d : int_obj) (month year : object) :
  as_int month = None ->
  __init__ (Int d) month year = Raise month_type_error.
Proof. intros H. unfold __init__. simpl. now rewrite H. Qed.

Lemma init_year_not_int (d m : int_obj) (year : object) :
  as_int year = None ->
  __init__ (Int d) (Int m) year = Raise year_type_error.
Proof. intros H. unfold __init__. simpl. now rewrite H. Qed.

Lemma init_year_out_of_range (d m y : int_obj) :
  int_value y < 1 ->
  __init__ (Int d) (Int m) (Int y) = Raise year_range_error.
Proof.
  intros H. unfold __init__. simpl.
  destruct (Z.ltb_spec (int_value y) 1); [reflexivity | lia].
Qed.

Lemma init_month_out_of_range (d m y : int_obj) :
  1 <= int_value y -> ~ (1 <= int_value m <= 12) ->
  __init__ (Int d) (Int m) (Int y) = Raise month_range_error.
Proof.
  intros Hy Hm. unfold __init__. simpl.
  destruct (Z.ltb_spec (int_value y) 1); [lia |].
  destruct (Z.leb_spec 1 (int_value m)); simpl; [| reflexivity].
  destruct (Z.leb_spec (int_value m) 12); simpl; [lia | reflexivity].
Qed.

Lemma init_day_out_of_range (d m y : int_obj) (n : Z) :
  1 <= int_value y -> 1 <= int_value m <= 12 ->
  days_in_month (int_value m) (int_value y) = Ok n ->
  ~ (1 <= int_value d <= n) ->
  __init__ (Int d) (Int m) (Int y) = Raise (day_range_error d m y).
Proof.
  intros Hy Hm Hn Hd. unfold __init__. simpl.
  destruct (Z.ltb_spec (int_value y) 1); [lia |].
  destruct (Z.leb_spec 1 (int_value m)); [| lia].
  destruct (Z.leb_spec (int_value m) 12); [| lia]. simpl.
  destruct (Z.leb_spec 1 (int_value d)); [| reflexivity].
  rewrite Hn. simpl.
  destruct (Z.leb_spec (int_value d) n); [lia | reflexivity].
Qed.

(** C4: the constructor checks, in this order, that the day is an int,
    that the month is, that the year is (each failure a [TypeError] naming
    the field), then that the year is at least 1, that the month is within
    1..12 and that the day is within 1..[days_in_month(month, year)] (each
    failure a [ValueError]).  The exception raised is that of the first
    check that fails, whatever the later arguments are; in particular any
    argument that is not an int gives a [TypeError], and construction
    succeeds when no check fails. *)
Theorem init_check_order :
  (forall day month year,
      as_int day = None -> __init__ day month year = Raise day_type_error)
  /\ (forall d month year,
      as_int month = None ->
      __init__ (Int d) month year = Raise month_type_error)
  /\ (forall d m year,
      as_int year = None ->
      __init__ (Int d) (Int m) year = Raise year_type_error)
  /\ (forall d m y,
      int_value y < 1 ->
      __init__ (Int d) (Int m) (Int y) = Raise year_range_error)
  /\ (forall d m y,
      1 <= int_value y -> ~ (1 <= int_value m <= 12) ->
      __init__ (Int d) (Int m) (Int y) = Raise month_range_error)
  /\ (forall d m y n,
      1 <= int_value y -> 1 <= int_value m <= 12 ->
      days_in_month (int_value m) (int_value y) = Ok n ->
      ~ (1 <= int_value d <= n) ->
      __init__ (Int d) (Int m) (Int y) = Raise (day_range_error d m y))
  /\ (forall d m y n,
      1 <= int_value y -> 1 <= int_value m <= 12 ->
      days_in_month (int_value m) (int_value y) = Ok n ->
      1 <= int_value d <= n ->
      __init__ (Int d) (Int m) (Int y) = Ok (mkDate d m y))
  /\ (forall day month year,
      as_int day = None \/ as_int month = None \/ as_int year = None ->
      exists msg, __init__ day month year = Raise (TypeError msg)).
Proof.
  split; [exact init_day_not_int |].
  split; [exact init_month_not_int |].
  split; [exact init_year_not_int |].
  split; [exact init_year_out_of_range |].
  split; [exact init_month_out_of_range |].
  split; [exact init_day_out_of_range |].
  split.
  - intros d m y n Hy Hm Hn Hd. apply init_valid.
    split; [exact Hy |]. split; [exact Hm |]. now exists n.
  - intros day month year H.
    destruct (as_int day) as [d |] eqn:Ed;
      [| eexists; now apply init_day_not_int].
    destruct day; try discriminate. injection Ed as ->.
    destruct (as_int month) as [m |] eqn:Em;
      [| eexists; now apply init_month_not_int].
    destruct month; try discriminate. injection Em as ->.
    destruct (as_int year) as [y |] eqn:Ey;
      [| eexists; now apply init_year_not_int].
    destruct H as [H | [H | H]]; discriminate.
Qed.

(** Every check fails at once: the day's type error wins; with an int day,
    the month's; and so on down to the day's range error. *)
Lemma init_check_order_witness :
  __init__ (Float (S754_finite false 7 (-1))) (Str "x") NoneObj
    = Raise day_type_error
  /\ __init__ (Int (PyInt 0)) (Str "x") NoneObj = Raise month_type_error
  /\ __init__ (Int (PyInt 0)) (Int (PyInt 13)) NoneObj
     = Raise year_type_error
  /\ __init__ (Int (PyInt 0)) (Int (PyInt 13)) (Int (PyInt 0))
     = Raise year_range_error
  /\ __init__ (Int (PyInt 0)) (Int (PyInt 13)) (Int (PyInt 2019))
     = Raise month_range_error
  /\ __init__ (Int (PyInt 29)) (Int (PyInt 2)) (Int (PyInt 2019))
     = Raise (day_range_error (PyInt 29) (PyInt 2) (PyInt 2019))
  /\ __init__ (Int (PyInt 29)) (Int (PyInt 2)) (Int (PyInt 2020))
     = Ok (mkDate (PyInt 29) (PyInt 2) (PyInt 2020))
  /\ exists msg,
       __init__ (Int (PyInt 0)) (Int (PyInt 13))
                (Float (S754_finite false 7 (-1)))
       = Raise (TypeError msg).
Proof.
  destruct init_check_order
    as (H1 & H2 & H3 & H4 & H5 & H6 & H7 & H8).
  split; [apply H1; reflexivity |].
  split; [apply H2; reflexivity |].
  split; [apply H3; reflexivity |].
  split; [apply H4; simpl; lia |].
  split; [apply H5; simpl; lia |].
  split; [apply (H6 _ _ _ 28); simpl; try lia; reflexivity |].
  split; [apply (H7 _ _ _ 29); simpl; try lia; reflexivity |].
  apply H8. right. right. reflexivity.
Defined.

(** ** Day of the year *)

Lemma day_of_year_formula (D M Y n : Z) :
  1 <= M <= 12 -> days_in_month M Y = Ok n -> 1 <= D <= n ->
  let doy :=
    py_sum (slice_to
              [31; if leap_year Y then 29 else 28; 31; 30; 31; 30;
               31; 31; 30; 31; 30; 31] (M - 1)) + D in
  (exists s, days_before M Y = Ok s /\ doy = s + D)
  /\ 1 <= doy <= year_length Y.
Proof.
  intros HM Hn HD.
  assert (M = 1 \/ M = 2 \/ M = 3 \/ M = 4 \/ M = 5 \/ M = 6 \/ M = 7
          \/ M = 8 \/ M = 9 \/ M = 10 \/ M = 11 \/ M = 12) as Hcases by lia.
  unfold year_length, days_before, months_before.
  unfold slice_to.
  repeat (destruct Hcases as [-> | Hcases]); try subst M;
    repeat match goal with
      | |- context [Z.to_nat ?z] =>
          let v := eval vm_compute in (Z.to_nat z) in
          change (Z.to_nat z) with v
      | |- context [Z.ltb ?a ?b] =>
          let v := eval vm_compute in (Z.ltb a b) in
          change (Z.ltb a b) with v
      end;
    unfold days_in_month in *; cbn -[Z.add] in *;
    destruct (leap_year Y); cbn -[Z.add] in *; injection Hn as <-;
    (split; [eexists; split; [reflexivity | lia] | lia]).
Qed.

(** C5: for every constructed date, [day_of_year] is the sum of
    [days_in_month(m, year)] over the months [m] strictly before the stored
    month, plus the stored day; it lies within 1..365 when the year is not
    a leap year and within 1..366 when it is.  22/11/2002 is day 326,
    01/01/2000 is day 1, 31/12/2000 is day 366 and 31/12/2001 is day 365. *)
Theorem day_of_year_ordinal :
  (forall dt : Date,
      constructed dt ->
      let day := int_value (_day dt) in
      let month := int_value (_month dt) in
      let year := int_value (_year dt) in
      (exists s, days_before month year = Ok s /\ day_of_year dt = s + day)
      /\ (leap_year year = false -> 1 <= day_of_year dt <= 365)
      /\ (leap_year year = true -> 1 <= day_of_year dt <= 366))
  /\ day_of_year_of 22 11 2002 = Ok 326
  /\ day_of_year_of 1 1 2000 = Ok 1
  /\ day_of_year_of 31 12 2000 = Ok 366
  /\ day_of_year_of 31 12 2001 = Ok 365.
Proof.
  split; [| repeat split; reflexivity].
  intros dt Hc. apply constructed_valid in Hc.
  destruct Hc as (Hy & Hm & n & Hn & Hd).
  destruct (day_of_year_formula _ _ _ n Hm Hn Hd) as (Hsum & Hrange).
  unfold year_length in Hrange. cbv zeta in *.
  fold (day_of_year dt) in Hsum, Hrange.
  split; [exact Hsum |].
  split; intros Hl; rewrite Hl in Hrange; exact Hrange.
Qed.

Lemma day_of_year_ordinal_witness :
  let dt := mkDate (PyInt 22) (PyInt 11) (PyInt 2002) in
  (exists s, days_before 11 2002 = Ok s /\ day_of_year dt = s + 22)
  /\ (leap_year 2002 = false -> 1 <= day_of_year dt <= 365)
  /\ (leap_year 2002 = true -> 1 <= day_of_year dt <= 366).
Proof.
  apply (proj1 day_of_year_ordinal
               (mkDate (PyInt 22) (PyInt 11) (PyInt 2002))).
  exists (Int (PyInt 22)), (Int (PyInt 11)), (Int (PyInt 2002)).
  reflexivity.
Defined.

(** ** Equality and ordering *)

Lemma lt_unfold (a b : Date) :
  __lt__ a (DateObj b) = true <-> key_lt a b.
Proof.
  unfold __lt__, key_lt. simpl.
  repeat case_eqb; rewrite ?Z.ltb_lt; lia.
Qed.

Lemma gt_unfold (a b : Date) :
  __gt__ a (DateObj b) = true <-> key_lt b a.
Proof.
  unfold __gt__, key_lt. simpl.
  repeat case_eqb; rewrite ?Z.gtb_ltb, ?Z.ltb_lt; lia.
Qed.

Lemma eq_unfold (a b : Date) :
  __eq__ a (DateObj b) = true <-> same_fields a b.
Proof.
  unfold __eq__, same_fields. simpl.
  rewrite !andb_true_iff, !Z.eqb_eq. tauto.
Qed.

Lemma le_unfold (a b : Date) :
  __le__ a (DateObj b) = true <-> key_lt a b \/ same_fields a b.
Proof.
  rewrite <- lt_unfold. unfold __le__, __lt__, same_fields. simpl.
  rewrite orb_true_iff, !andb_true_iff, !Z.eqb_eq. tauto.
Qed.

Ltac reflect_comparisons :=
  repeat match goal with
    | H : __lt__ _ (DateObj _) = true |- _ => apply lt_unfold in H
    | H : __gt__ _ (DateObj _) = true |- _ => apply gt_unfold in H
    | H : __eq__ _ (DateObj _) = true |- _ => apply eq_unfold in H
    | H : __lt__ ?a (DateObj ?b) = false |- _ =>
        assert (~ key_lt a b) by (rewrite <- lt_unfold; congruence); clear H
    | H : __gt__ ?a (DateObj ?b) = false |- _ =>
        assert (~ key_lt b a) by (rewrite <- gt_unfold; congruence); clear H
    | H : __eq__ ?a (DateObj ?b) = false |- _ =>
        assert (~ same_fields a b) by (rewrite <- eq_unfold; congruence);
        clear H
    end;
  unfold key_lt, same_fields in *.

(** C7: on dates, [<] is the lexicographic order of the key
    (year, month, day), [>] is its converse, [==] is equality of the three
    fields; for all dates a, b, c exactly one of a < b, a == b, a > b holds
    and [<] is transitive.  This holds for every date object, so for the
    constructed ones. *)
Theorem date_order_strict_total (a b c : Date) :
  (__lt__ a (DateObj b) = true <-> key_lt a b)
  /\ (__gt__ a (DateObj b) = true <-> key_lt b a)
  /\ (__eq__ a (DateObj b) = true <-> same_fields a b)
  /\ ((__lt__ a (DateObj b) = true /\ __eq__ a (DateObj b) = false
       /\ __gt__ a (DateObj b) = false)
      \/ (__lt__ a (DateObj b) = false /\ __eq__ a (DateObj b) = true
          /\ __gt__ a (DateObj b) = false)
      \/ (__lt__ a (DateObj b) = false /\ __eq__ a (DateObj b) = false
          /\ __gt__ a (DateObj b) = true))
  /\ (__lt__ a (DateObj b) = true -> __lt__ b (DateObj c) = true ->
      __lt__ a (DateObj c) = true).
Proof.
  split; [apply lt_unfold |]. split; [apply gt_unfold |].
  split; [apply eq_unfold |]. split.
  - destruct (__lt__ a (DateObj b)) eqn:L, (__eq__ a (DateObj b)) eqn:E,
      (__gt__ a (DateObj b)) eqn:G;
      try tauto; exfalso; reflect_comparisons; lia.
  - intros L1 L2. apply lt_unfold. reflect_comparisons. lia.
Qed.

Lemma date_order_strict_total_witness :
  let a := mkDate (PyInt 3) (PyInt 11) (PyInt 1986) in
  let c := mkDate (PyInt 28) (PyInt 9) (PyInt 2007) in
  __lt__ a (DateObj c) = true.
Proof.
  intros a c.
  apply (proj2 (proj2 (proj2 (proj2
           (date_order_strict_total
              a (mkDate (PyInt 22) (PyInt 11) (PyInt 2002)) c)))));
    reflexivity.
Defined.

(** C8: for a date a and any object b, a date or not, [a <= b] holds
    exactly when [a < b] or [a == b] does. *)
Theorem le_is_lt_or_eq (a : Date) (b : object) :
  __le__ a b = __lt__ a b || __eq__ a b.
Proof.
  unfold __le__, __lt__, __eq__.
  destruct (as_Date b) as [o |]; [| reflexivity].
  simpl. repeat case_eqb; rewrite ?orb_false_r, ?orb_true_r; reflexivity.
Qed.

(** C9: for a date a and an object b that is not a date, each of
    [a == b], [a < b], [a > b] and [a <= b] is False; the methods return
    a bool on every input and have no raising path. *)
Theorem compare_with_non_date (a : Date) (b : object) :
  as_Date b = None ->
  __eq__ a b = false /\ __lt__ a b = false
  /\ __gt__ a b = false /\ __le__ a b = false.
Proof.
  intros H. unfold __eq__, __lt__, __gt__, __le__. rewrite H. tauto.
Qed.

Lemma compare_with_non_date_witness :
  let a := mkDate (PyInt 28) (PyInt 9) (PyInt 2007) in
  __eq__ a (Str "28/09/2007") = false
  /\ __lt__ a (Str "28/09/2007") = false
  /\ __gt__ a (Str "28/09/2007") = false
  /\ __le__ a (Str "28/09/2007") = false.
Proof.
  apply (compare_with_non_date
           (mkDate (PyInt 28) (PyInt 9) (PyInt 2007)) (Str "28/09/2007")).
  reflexivity.
Defined.

(** ** Decimal text *)

Lemma digit_cases (d : Z) :
  0 <= d <= 9 ->
  d = 0 \/ d = 1 \/ d = 2 \/ d = 3 \/ d = 4 \/ d = 5 \/ d = 6 \/ d = 7
  \/ d = 8 \/ d = 9.
Proof. lia. Qed.

Ltac each_digit H :=
  apply digit_cases in H;
  repeat (destruct H as [-> | H]); try subst.

Lemma digit_of_digit_char (d : Z) :
  0 <= d <= 9 -> digit_of_char (digit_char d) = d.
Proof. intros H. each_digit H; reflexivity. Qed.

Lemma is_digit_digit_char (d : Z) :
  0 <= d <= 9 -> is_digit (digit_char d) = true.
Proof. intros H. each_digit H; reflexivity. Qed.

Lemma digit_char_nonzero (d : Z) :
  1 <= d <= 9 -> Ascii.eqb (digit_char d) "0" = false.
Proof.
  intros H. assert (0 <= d <= 9) as H' by lia.
  each_digit H'; try lia; reflexivity.
Qed.

Lemma digit_char_inj (d e : Z) :
  0 <= d <= 9 -> 0 <= e <= 9 -> digit_char d = digit_char e -> d = e.
Proof.
  intros Hd He Heq.
  rewrite <- (digit_of_digit_char d Hd), <- (digit_of_digit_char e He).
  now rewrite Heq.
Qed.

(** The fuel of [str_nonneg] is enough: with [n] below [2 ^ fuel] all the
    digits of [n] are produced, so the text reads back as [n]. *)
Lemma digits_onto_spec (fuel : nat) :
  forall (n : Z) (acc : string),
    0 <= n < 2 ^ Z.of_nat fuel ->
    digits_value (digits_onto fuel n acc) 0 = digits_value acc n
    /\ (all_digits acc = true ->
        all_digits (digits_onto fuel n acc) = true)
    /\ (1 <= n -> starts_nonzero (digits_onto fuel n acc) = true).
Proof.
  induction fuel as [| k IH]; intros n acc Hn.
  - change (2 ^ Z.of_nat 0) with 1 in Hn. assert (n = 0) as -> by lia.
    cbn [digits_onto]. split; [reflexivity |]. split; [tauto | lia].
  - rewrite Nat2Z.inj_succ, Z.pow_succ_r in Hn by lia.
    assert (0 <= n mod 10 <= 9) as Hmod
        by (pose proof (Z.mod_pos_bound n 10); lia).
    cbn [digits_onto]. destruct (Z.ltb_spec n 10) as [Hlt | Hge].
    + cbn [digits_value all_digits starts_nonzero].
      rewrite digit_of_digit_char, is_digit_digit_char by exact Hmod.
      rewrite (Z.mod_small n 10) by lia.
      split; [f_equal; lia |]. split; [intros ->; reflexivity |].
      intros H1. rewrite digit_char_nonzero by lia. reflexivity.
    + assert (0 <= n / 10 < 2 ^ Z.of_nat k) as Hdiv.
      { split; [apply Z.div_pos; lia |].
        apply Z.div_lt_upper_bound; lia. }
      destruct (IH (n / 10) (String (digit_char (n mod 10)) acc) Hdiv)
        as (Hval & Hdig & Hnz).
      split; [| split].
      * rewrite Hval. cbn [digits_value].
        rewrite digit_of_digit_char by exact Hmod.
        f_equal. symmetry. apply Z.div_mod. discriminate.
      * intros Hacc. apply Hdig. cbn [all_digits].
        rewrite is_digit_digit_char by exact Hmod. exact Hacc.
      * intros _. apply Hnz. apply Z.div_le_lower_bound; lia.
Qed.

Lemma str_nonneg_fuel (n : Z) :
  0 <= n -> 0 <= n < 2 ^ Z.of_nat (S (Z.to_nat (Z.log2 n))).
Proof.
  intros Hn. split; [exact Hn |].
  rewrite Nat2Z.inj_succ, Z2Nat.id by apply Z.log2_nonneg.
  destruct (Z.eq_dec n 0) as [-> | Hne]; [reflexivity |].
  apply Z.log2_spec. lia.
Qed.

Lemma str_nonneg_value (n : Z) :
  0 <= n -> decimal_value (str_nonneg n) = n.
Proof.
  intros Hn. unfold decimal_value, str_nonneg.
  now rewrite (proj1 (digits_onto_spec _ n "" (str_nonneg_fuel n Hn))).
Qed.

Lemma str_nonneg_all_digits (n : Z) :
  0 <= n -> all_digits (str_nonneg n) = true.
Proof.
  intros Hn.
  now apply (proj2 (digits_onto_spec _ n "" (str_nonneg_fuel n Hn))).
Qed.

Lemma str_nonneg_starts_nonzero (n : Z) :
  1 <= n -> starts_nonzero (str_nonneg n) = true.
Proof.
  intros Hn. assert (0 <= n) as H0 by lia.
  now apply (proj2 (digits_onto_spec _ n "" (str_nonneg_fuel n H0))).
Qed.

Lemma str_int_plain_decimal (n : Z) :
  1 <= n -> plain_decimal (str_int n) n.
Proof.
  intros Hn. unfold plain_decimal, str_int.
  destruct (Z.ltb_spec n 0); [lia |].
  split; [apply str_nonneg_all_digits; lia |].
  split; [now apply str_nonneg_starts_nonzero |].
  apply str_nonneg_value; lia.
Qed.

Lemma str_nonneg_one_digit (n : Z) :
  0 <= n < 10 -> str_nonneg n = String (digit_char n) "".
Proof.
  intros Hn. unfold str_nonneg. cbn [digits_onto].
  destruct (Z.ltb_spec n 10); [| lia].
  now rewrite Z.mod_small by lia.
Qed.

Lemma str_nonneg_two_digits (n : Z) :
  10 <= n < 100 -> str_nonneg n = two_digits n.
Proof.
  intros Hn. unfold str_nonneg, two_digits.
  assert (3 <= Z.log2 n) as Hlog by (apply Z.log2_le_pow2; lia).
  destruct (Z.to_nat (Z.log2 n)) as [| k] eqn:Ek; [lia |].
  cbn [digits_onto].
  destruct (Z.ltb_spec n 10); [lia |].
  assert (0 <= n / 10 < 10) as Hq.
  { split; [apply Z.div_pos; lia | apply Z.div_lt_upper_bound; lia]. }
  destruct (Z.ltb_spec (n / 10) 10); [| lia].
  now rewrite (Z.mod_small (n / 10)) by lia.
Qed.

(** [{x:02d}] of a value within 0..99 is its two digits. *)
Lemma format_0d_two_digits (i : int_obj) :
  0 <= int_value i < 100 -> format_0d 2 i = two_digits (int_value i).
Proof.
  intros Hi. unfold format_0d.
  destruct (Z.ltb_spec (int_value i) 0); [lia |]. cbv zeta.
  destruct (Z_lt_dec (int_value i) 10) as [Hlt | Hge].
  - rewrite str_nonneg_one_digit by lia. unfold two_digits.
    rewrite Z.div_small, Z.mod_small by lia. reflexivity.
  - rewrite str_nonneg_two_digits by lia. reflexivity.
Qed.

Lemma two_digits_inj (a b : Z) :
  0 <= a < 100 -> 0 <= b < 100 -> two_digits a = two_digits b -> a = b.
Proof.
  intros Ha Hb H. unfold two_digits in H. injection H as Htens Hunits.
  assert (0 <= a / 10 <= 9 /\ 0 <= b / 10 <= 9) as (Hqa & Hqb).
  { split; (split; [apply Z.div_pos; lia |]).
    - assert (a / 10 < 10) by (apply Z.div_lt_upper_bound; lia). lia.
    - assert (b / 10 < 10) by (apply Z.div_lt_upper_bound; lia). lia. }
  pose proof (Z.mod_pos_bound a 10) as Hma.
  pose proof (Z.mod_pos_bound b 10) as Hmb.
  apply digit_char_inj in Htens; [| lia | lia].
  apply digit_char_inj in Hunits; [| lia | lia].
  rewrite (Z.div_mod a 10), (Z.div_mod b 10) by discriminate.
  now rewrite Htens, Hunits.
Qed.

(** The text of a year that passed the constructor determines its value:
    decimal texts read back as their number, and the name of a bool is
    not a decimal text. *)
Lemma str_obj_inj (y y' : int_obj) :
  1 <= int_value y -> 1 <= int_value y' ->
  str_obj y = str_obj y' -> int_value y = int_value y'.
Proof.
  intros Hy Hy' H.
  destruct y as [n | [|]], y' as [n' | [|]]; simpl in Hy, Hy';
    try lia; try reflexivity; cbn [str_obj int_value] in *.
  - destruct (str_int_plain_decimal n Hy) as (_ & _ & Hn).
    destruct (str_int_plain_decimal n' Hy') as (_ & _ & Hn').
    rewrite <- Hn, <- Hn'. now rewrite H.
  - destruct (str_int_plain_decimal n Hy) as (Hd & _ & _).
    rewrite H in Hd. discriminate.
  - destruct (str_int_plain_decimal n' Hy') as (Hd & _ & _).
    rewrite <- H in Hd. discriminate.
Qed.

Lemma str_of_valid (dt : Date) :
  valid_date dt ->
  __str__ dt
  = two_digits (int_value (_day dt)) ++ "/"
    ++ two_digits (int_value (_month dt)) ++ "/" ++ str_obj (_year dt).
Proof.
  intros (Hy & Hm & n & Hn & Hd).
  destruct (days_in_month_in_range _ (int_value (_year dt)) Hm)
    as (n' & Hn' & Hbound).
  assert (n' = n) as -> by congruence.
  unfold __str__. now rewrite !format_0d_two_digits by lia.
Qed.

(** ** Rendering *)

(** X21: for every triple the constructor accepts, the text of the date
    is the day as two zero-padded decimal digits, a slash, the month as
    two zero-padded decimal digits, a slash, and [str] of the year; when
    the year is a plain int, that is its plain decimal form: digits only,
    no leading zero, reading back as the year. *)
Theorem str_is_dd_mm_yyyy (day month year : object) (dt : Date) :
  __init__ day month year = Ok dt ->
  __str__ dt
  = two_digits (int_value (_day dt)) ++ "/"
    ++ two_digits (int_value (_month dt)) ++ "/" ++ str_obj (_year dt)
  /\ day = Int (_day dt) /\ month = Int (_month dt)
  /\ year = Int (_year dt)
  /\ forall n, _year dt = PyInt n -> plain_decimal (str_obj (_year dt)) n.
Proof.
  intros H.
  assert (valid_date dt) as Hv by (apply constructed_valid; now exists day, month, year).
  split; [now apply str_of_valid |].
  apply init_ok_inv in H as (d & m & y & -> & -> & -> & -> & _).
  do 3 (split; [reflexivity |]).
  intros n Hn. destruct Hv as (Hy & _). rewrite Hn in *.
  now apply str_int_plain_decimal.
Qed.

Lemma str_is_dd_mm_yyyy_witness :
  __str__ (mkDate (PyInt 3) (PyInt 11) (PyInt 1986))
  = two_digits 3 ++ "/" ++ two_digits 11 ++ "/" ++ str_obj (PyInt 1986)
  /\ plain_decimal (str_obj (PyInt 1986)) 1986.
Proof.
  destruct (str_is_dd_mm_yyyy
              (Int (PyInt 3)) (Int (PyInt 11)) (Int (PyInt 1986))
              (mkDate (PyInt 3) (PyInt 11) (PyInt 1986)) eq_refl)
    as (Hs & _ & _ & _ & Hy).
  split; [exact Hs | exact (Hy 1986 eq_refl)].
Defined.

(** C6: the text of an accepted triple is meant to end with the year in
    plain decimal.  The constructor's int check lets the bool [True]
    through as a year, and [__str__], which prints day and month through
    [02d], prints the year without it: Date(1, 1, True) is constructed
    and its text is 01/01/True, not 01/01/1, so the year part is not the
    plain decimal form of the year. *)
Theorem bool_year_str_is_not_plain_decimal :
  exists a : Date,
    __init__ (Int (PyInt 1)) (Int (PyInt 1)) (Int (PyBool true)) = Ok a
    /\ int_value (_year a) = 1
    /\ __str__ a = "01/01/True"
    /\ __str__ a
       <> two_digits 1 ++ "/" ++ two_digits 1 ++ "/" ++ str_int 1
    /\ ~ plain_decimal (str_obj (_year a)) (int_value (_year a)).
Proof.
  exists (mkDate (PyInt 1) (PyInt 1) (PyBool true)).
  do 3 (split; [reflexivity |]).
  split; [discriminate |].
  intros (Hdigits & _). discriminate.
Qed.

(** ** Rendering against equality *)

Lemma valid_date_bounds (dt : Date) :
  valid_date dt ->
  1 <= int_value (_day dt) < 100 /\ 1 <= int_value (_month dt) < 100
  /\ 1 <= int_value (_year dt).
Proof.
  intros (Hy & Hm & n & Hn & Hd).
  destruct (days_in_month_in_range _ (int_value (_year dt)) Hm)
    as (n' & Hn' & Hbound).
  assert (n' = n) as -> by congruence. lia.
Qed.

(** X17: the text identifies the date: two constructed dates with the
    same text are [==], whatever the kinds of their attributes. *)
Lemma same_str_same_date (a b : Date) :
  constructed a -> constructed b ->
  __str__ a = __str__ b -> __eq__ a (DateObj b) = true.
Proof.
  intros Ha Hb Hs. apply constructed_valid in Ha, Hb.
  rewrite (str_of_valid a Ha), (str_of_valid b Hb) in Hs.
  destruct (valid_date_bounds a Ha) as (Hda & Hma & Hya).
  destruct (valid_date_bounds b Hb) as (Hdb & Hmb & Hyb).
  unfold two_digits in Hs. cbn [append] in Hs.
  injection Hs as Hd1 Hd2 Hm1 Hm2 Hy.
  apply eq_unfold. unfold same_fields.
  split; [| split].
  - apply two_digits_inj; try lia. unfold two_digits. congruence.
  - apply two_digits_inj; try lia. unfold two_digits. congruence.
  - now apply str_obj_inj.
Qed.

(** X18: two constructed dates that are [==] and whose years are plain
    ints have the same text, also when a day or a month is a bool. *)
Lemma same_date_same_str (a b : Date) (n n' : Z) :
  constructed a -> constructed b ->
  _year a = PyInt n -> _year b = PyInt n' ->
  __eq__ a (DateObj b) = true -> __str__ a = __str__ b.
Proof.
  intros Ha Hb Hya Hyb He. apply constructed_valid in Ha, Hb.
  rewrite (str_of_valid a Ha), (str_of_valid b Hb).
  apply eq_unfold in He. destruct He as (Hd & Hm & Hy).
  rewrite Hya, Hyb in *. simpl in Hy. now rewrite Hd, Hm, Hy.
Qed.

(** C10: the text of a date is meant to identify it, equal dates having
    equal texts.  The constructor's int check lets the bool [True] through
    as a year, [==] takes it for 1, and [__str__] prints it by name:
    Date(1, 1, True) and Date(1, 1, 1) are both constructed and equal, and
    their texts differ. *)
Theorem bool_year_equal_dates_differ_in_str :
  exists a b : Date,
    __init__ (Int (PyInt 1)) (Int (PyInt 1)) (Int (PyBool true)) = Ok a
    /\ __init__ (Int (PyInt 1)) (Int (PyInt 1)) (Int (PyInt 1)) = Ok b
    /\ __eq__ a (DateObj b) = true
    /\ __str__ a = "01/01/True" /\ __str__ b = "01/01/1"
    /\ __str__ a <> __str__ b.
Proof.
  exists (mkDate (PyInt 1) (PyInt 1) (PyBool true)),
         (mkDate (PyInt 1) (PyInt 1) (PyInt 1)).
  repeat (split; [reflexivity |]). discriminate.
Qed.

(** * Further properties of the code *)

(** ** The calendar functions *)

(** X1: [leap_year] repeats every 400 years, in both directions and for
    negative years too: shifting the year by any multiple of 400 does not
    change the answer. *)
Theorem leap_year_period_400 (year k : Z) :
  leap_year (year + 400 * k) = leap_year year.
Proof.
  assert ((year + 400 * k) mod 4 = year mod 4) as H4.
  { replace (year + 400 * k) with (year + (100 * k) * 4) by lia.
    apply Z_mod_plus_full. }
  assert ((year + 400 * k) mod 100 = year mod 100) as H100.
  { replace (year + 400 * k) with (year + (4 * k) * 100) by lia.
    apply Z_mod_plus_full. }
  assert ((year + 400 * k) mod 400 = year mod 400) as H400.
  { replace (year + 400 * k) with (year + k * 400) by lia.
    apply Z_mod_plus_full. }
  unfold leap_year. now rewrite H4, H100, H400.
Qed.

(** X2: only February depends on the year: for any other month, valid or
    not, [days_in_month] gives the same result in every year; and whenever
    it returns, the month is within 1..12 and the length within 28..31. *)
Theorem days_in_month_year_only_february (month year year' : Z) :
  (month <> 2 -> days_in_month month year = days_in_month month year')
  /\ (forall n, days_in_month month year = Ok n ->
      1 <= month <= 12 /\ 28 <= n <= 31).
Proof.
  split.
  - intros Hm. unfold days_in_month.
    destruct (py_in month [1; 3; 5; 7; 8; 10; 12]); [reflexivity |].
    destruct (py_in month [4; 6; 9; 11]); [reflexivity |].
    destruct (Z.eqb_spec month 2); [contradiction | reflexivity].
  - intros n Hn.
    destruct (Z_le_dec 1 month) as [H1 | H1];
      [destruct (Z_le_dec month 12) as [H2 | H2] |];
      try (rewrite days_in_month_out_of_range in Hn by lia; discriminate).
    destruct (days_in_month_in_range month year (conj H1 H2))
      as (n' & Hn' & Hb).
    assert (n' = n) as <- by congruence. lia.
Qed.

Lemma days_in_month_year_only_february_witness :
  days_in_month 4 1900 = days_in_month 4 2024
  /\ (1 <= 2 <= 12 /\ 28 <= 29 <= 31).
Proof.
  split.
  - apply (proj1 (days_in_month_year_only_february 4 1900 2024)). lia.
  - apply (proj2 (days_in_month_year_only_february 2 2024 0) 29).
    reflexivity.
Defined.

(** X3: the twelve month lengths that [days_in_month] gives for a year add
    up to 366 when [leap_year] holds for it and to 365 otherwise. *)
Theorem month_lengths_sum_to_year_length (year : Z) :
  days_before 13 year = Ok (if leap_year year then 366 else 365).
Proof.
  unfold days_before, months_before.
  change (Z.to_nat (13 - 1)) with 12%nat.
  unfold days_in_month. cbn -[Z.add].
  destruct (leap_year year); reflexivity.
Qed.

(** X4: the month table inside [day_of_year] agrees with [days_in_month]:
    for a month within 1..11, the same day number one month later has an
    ordinal larger by exactly the length of the earlier month. *)
Theorem day_of_year_month_step (d y : int_obj) (m n : Z) :
  1 <= m <= 11 ->
  days_in_month m (int_value y) = Ok n ->
  day_of_year (mkDate d (PyInt (m + 1)) y)
  = day_of_year (mkDate d (PyInt m) y) + n.
Proof.
  intros Hm Hn.
  assert (m = 1 \/ m = 2 \/ m = 3 \/ m = 4 \/ m = 5 \/ m = 6 \/ m = 7
          \/ m = 8 \/ m = 9 \/ m = 10 \/ m = 11) as Hcases by lia.
  unfold day_of_year, slice_to. cbn [_day _month _year int_value].
  repeat (destruct Hcases as [-> | Hcases]); try subst m;
    repeat match goal with
      | |- context [Z.to_nat ?z] =>
          let v := eval vm_compute in (Z.to_nat z) in
          change (Z.to_nat z) with v
      | |- context [Z.ltb ?a ?b] =>
          let v := eval vm_compute in (Z.ltb a b) in
          change (Z.ltb a b) with v
      end;
    unfold days_in_month in Hn; cbn -[Z.add] in *;
    destruct (leap_year (int_value y)); injection Hn as <-; lia.
Qed.

Lemma day_of_year_month_step_witness :
  day_of_year (mkDate (PyInt 15) (PyInt (2 + 1)) (PyInt 2024))
  = day_of_year (mkDate (PyInt 15) (PyInt 2) (PyInt 2024)) + 29.
Proof.
  apply (day_of_year_month_step (PyInt 15) (PyInt 2024) 2 29).
  - lia.
  - reflexivity.
Defined.

(** ** The constructor *)

(** X5: the constructor raises nothing but its own six exceptions; the
    "Invalid month" error of [days_in_month] never comes out of it, the
    month being checked before [days_in_month] is called. *)
Theorem init_raises_only_its_own (day month year : object) (e : exception) :
  __init__ day month year = Raise e ->
  (e = day_type_error \/ e = month_type_error \/ e = year_type_error
   \/ e = year_range_error \/ e = month_range_error
   \/ exists d m y,
        day = Int d /\ month = Int m /\ year = Int y
        /\ e = day_range_error d m y)
  /\ e <> ValueError "Invalid month".
Proof.
  intros H.
  assert (e = day_type_error \/ e = month_type_error
          \/ e = year_type_error \/ e = year_range_error
          \/ e = month_range_error
          \/ exists d m y,
               day = Int d /\ month = Int m /\ year = Int y
               /\ e = day_range_error d m y) as Hcases.
  { unfold __init__ in H.
    destruct day as [d | | | | |]; cbn [as_int] in H;
      try (injection H as <-; tauto).
    destruct month as [m | | | | |]; cbn [as_int] in H;
      try (injection H as <-; tauto).
    destruct year as [y | | | | |]; cbn [as_int] in H;
      try (injection H as <-; tauto).
    destruct (Z.ltb_spec (int_value y) 1); [injection H as <-; tauto |].
    destruct (Z.leb_spec 1 (int_value m)); cbn [andb negb] in H;
      [| injection H as <-; tauto].
    destruct (Z.leb_spec (int_value m) 12); cbn [andb negb] in H;
      [| injection H as <-; tauto].
    assert (exists d0 m0 y0,
               Int d = Int d0 /\ Int m = Int m0 /\ Int y = Int y0
               /\ day_range_error d m y = day_range_error d0 m0 y0)
      as Hday by (exists d, m, y; tauto).
    destruct (Z.leb_spec 1 (int_value d));
      [| injection H as <-; tauto].
    destruct (days_in_month_in_range (int_value m) (int_value y))
      as (n & Hn & _); [lia |].
    rewrite Hn in H. cbn [bind] in H.
    destruct (Z.leb_spec (int_value d) n);
      [discriminate | injection H as <-; tauto]. }
  split; [exact Hcases |].
  destruct Hcases as [-> | [-> | [-> | [-> | [-> | Hday]]]]];
    try discriminate.
  destruct Hday as (d & m & y & _ & _ & _ & ->).
  unfold day_range_error, day_error_message. cbn [append]. discriminate.
Qed.

Lemma init_raises_only_its_own_witness :
  ValueError "Day 31 is not valid for month 2 and year 2020."
  <> ValueError "Invalid month".
Proof.
  apply (init_raises_only_its_own
           (Int (PyInt 31)) (Int (PyInt 2)) (Int (PyInt 2020))).
  reflexivity.
Defined.

(** X6: for a year of at least 1, the 29th of February is accepted exactly
    when [leap_year] holds for the year. *)
Theorem february_29_iff_leap_year (y : int_obj) :
  1 <= int_value y ->
  (exists dt, __init__ (Int (PyInt 29)) (Int (PyInt 2)) (Int y) = Ok dt)
  <-> leap_year (int_value y) = true.
Proof.
  intros Hy. split.
  - intros (dt & H).
    apply init_ok_inv in H
      as (d & m & y' & [= <-] & [= <-] & [= <-] & _ & _ & _ & n & Hn & Hd).
    cbn [int_value] in *. unfold days_in_month in Hn. cbn -[Z.add] in Hn.
    destruct (leap_year (int_value y)); [reflexivity |].
    injection Hn as <-. lia.
  - intros Hl. eexists. apply init_valid. cbn [int_value].
    split; [exact Hy |]. split; [lia |].
    exists 29. split; [| lia].
    unfold days_in_month. cbn -[Z.add]. now rewrite Hl.
Qed.

Lemma february_29_iff_leap_year_witness :
  (exists dt,
      __init__ (Int (PyInt 29)) (Int (PyInt 2)) (Int (PyInt 2020)) = Ok dt)
  <-> leap_year 2020 = true.
Proof.
  apply (february_29_iff_leap_year (PyInt 2020)). simpl. lia.
Defined.

(** X7: a day within 1..28 is accepted in every month within 1..12 of
    every year of at least 1, and no accepted day is above 31. *)
Theorem init_day_bounds :
  (forall d m y : int_obj,
      1 <= int_value d <= 28 -> 1 <= int_value m <= 12 ->
      1 <= int_value y ->
      __init__ (Int d) (Int m) (Int y) = Ok (mkDate d m y))
  /\ (forall day month year dt,
      __init__ day month year = Ok dt -> 1 <= int_value (_day dt) <= 31).
Proof.
  split.
  - intros d m y Hd Hm Hy. apply init_valid.
    destruct (days_in_month_in_range (int_value m) (int_value y) Hm)
      as (n & Hn & Hb).
    split; [exact Hy |]. split; [exact Hm |].
    exists n. split; [exact Hn | lia].
  - intros day month year dt H.
    assert (valid_date dt) as Hv
        by (apply constructed_valid; now exists day, month, year).
    apply valid_date_bounds in Hv as (_ & _ & _).
    apply init_ok_inv in H
      as (d & m & y & _ & _ & _ & -> & Hy & Hm & n & Hn & Hd).
    destruct (days_in_month_in_range (int_value m) (int_value y) Hm)
      as (n' & Hn' & Hb).
    assert (n' = n) as -> by congruence. cbn [_day]. lia.
Qed.

Lemma init_day_bounds_witness :
  __init__ (Int (PyInt 28)) (Int (PyInt 2)) (Int (PyInt 1900))
  = Ok (mkDate (PyInt 28) (PyInt 2) (PyInt 1900))
  /\ 1 <= int_value (_day (mkDate (PyInt 31) (PyInt 12) (PyInt 2000))) <= 31.
Proof.
  destruct init_day_bounds as (Hlow & Hhigh). split.
  - apply Hlow; simpl; lia.
  - apply (Hhigh (Int (PyInt 31)) (Int (PyInt 12)) (Int (PyInt 2000))).
    reflexivity.
Defined.

(** X8: building a date again from the attributes of a constructed date
    succeeds and gives the same date. *)
Theorem init_of_constructed_fields (dt : Date) :
  constructed dt ->
  __init__ (Int (_day dt)) (Int (_month dt)) (Int (_year dt)) = Ok dt.
Proof.
  intros (day & month & year & H).
  apply init_ok_inv in H as (d & m & y & _ & _ & _ & -> & Hv).
  now apply init_valid.
Qed.

Lemma init_of_constructed_fields_witness :
  let dt := mkDate (PyInt 22) (PyInt 11) (PyInt 2002) in
  __init__ (Int (_day dt)) (Int (_month dt)) (Int (_year dt)) = Ok dt.
Proof.
  apply (init_of_constructed_fields
           (mkDate (PyInt 22) (PyInt 11) (PyInt 2002))).
  exists (Int (PyInt 22)), (Int (PyInt 11)), (Int (PyInt 2002)).
  reflexivity.
Defined.

(** X9: acceptance looks at integer values only, so a bool is taken for
    the number 0 or 1: arguments with the same values as those of an
    accepted triple are accepted too, and the two dates are [==] and have
    the same day of the year. *)
Theorem init_by_value (d m y d' m' y' : int_obj) (a : Date) :
  int_value d = int_value d' -> int_value m = int_value m' ->
  int_value y = int_value y' ->
  __init__ (Int d) (Int m) (Int y) = Ok a ->
  exists b,
    __init__ (Int d') (Int m') (Int y') = Ok b
    /\ __eq__ a (DateObj b) = true /\ __eq__ b (DateObj a) = true
    /\ day_of_year a = day_of_year b.
Proof.
  intros Hd Hm Hy H.
  apply init_ok_inv in H
    as (d0 & m0 & y0 & [= <-] & [= <-] & [= <-] & -> & Hv).
  exists (mkDate d' m' y'). split.
  - apply init_valid. now rewrite <- Hd, <- Hm, <- Hy.
  - split; [| split].
    + apply eq_unfold. unfold same_fields. cbn [_day _month _year]. tauto.
    + apply eq_unfold. unfold same_fields. cbn [_day _month _year].
      repeat split; congruence.
    + unfold day_of_year. cbn [_day _month _year].
      now rewrite Hd, Hm, Hy.
Qed.

Lemma init_by_value_witness :
  exists b,
    __init__ (Int (PyBool true)) (Int (PyBool true)) (Int (PyInt 2000))
    = Ok b
    /\ __eq__ (mkDate (PyInt 1) (PyInt 1) (PyInt 2000)) (DateObj b) = true
    /\ __eq__ b (DateObj (mkDate (PyInt 1) (PyInt 1) (PyInt 2000))) = true
    /\ day_of_year (mkDate (PyInt 1) (PyInt 1) (PyInt 2000))
       = day_of_year b.
Proof.
  apply (init_by_value (PyInt 1) (PyInt 1) (PyInt 2000)
                       (PyBool true) (PyBool true) (PyInt 2000));
    reflexivity.
Defined.

(** ** Comparisons *)

Ltac reflect_le :=
  repeat match goal with
    | H : __le__ _ (DateObj _) = true |- _ => apply le_unfold in H
    | H : __le__ ?a (DateObj ?b) = false |- _ =>
        assert (~ (key_lt a b \/ same_fields a b))
          by (rewrite <- le_unfold; congruence);
        clear H
    end.

(** X10: on dates [==] is an equivalence: every date equals itself, the
    result does not depend on which operand is [self], and dates equal to
    a common date are equal. *)
Theorem eq_is_equivalence (a b c : Date) :
  __eq__ a (DateObj a) = true
  /\ __eq__ a (DateObj b) = __eq__ b (DateObj a)
  /\ (__eq__ a (DateObj b) = true -> __eq__ b (DateObj c) = true ->
      __eq__ a (DateObj c) = true).
Proof.
  split; [| split].
  - apply eq_unfold. unfold same_fields. tauto.
  - destruct (__eq__ a (DateObj b)) eqn:E1, (__eq__ b (DateObj a)) eqn:E2;
      try reflexivity; exfalso; reflect_comparisons; lia.
  - intros E1 E2. apply eq_unfold. reflect_comparisons. lia.
Qed.

Lemma eq_is_equivalence_witness :
  let a := mkDate (PyBool true) (PyInt 1) (PyInt 2000) in
  let c := mkDate (PyInt 1) (PyBool true) (PyInt 2000) in
  __eq__ a (DateObj c) = true.
Proof.
  intros a c.
  apply (proj2 (proj2 (eq_is_equivalence
                         a (mkDate (PyInt 1) (PyInt 1) (PyInt 2000)) c)));
    reflexivity.
Defined.

(** X11: on dates [<=] is a total preorder whose symmetric part is [==]:
    it is reflexive and transitive, of any two dates one is [<=] the
    other, and two dates that are [<=] each other are [==]. *)
Theorem le_is_total_preorder (a b c : Date) :
  __le__ a (DateObj a) = true
  /\ (__le__ a (DateObj b) = true \/ __le__ b (DateObj a) = true)
  /\ (__le__ a (DateObj b) = true -> __le__ b (DateObj c) = true ->
      __le__ a (DateObj c) = true)
  /\ (__le__ a (DateObj b) = true -> __le__ b (DateObj a) = true ->
      __eq__ a (DateObj b) = true).
Proof.
  split; [| split; [| split]].
  - apply le_unfold. right. unfold same_fields. tauto.
  - rewrite !le_unfold. unfold key_lt, same_fields. lia.
  - intros L1 L2. apply le_unfold. reflect_le.
    unfold key_lt, same_fields in *. lia.
  - intros L1 L2. apply eq_unfold. reflect_le.
    unfold key_lt, same_fields in *. lia.
Qed.

Lemma le_is_total_preorder_witness :
  let a := mkDate (PyInt 3) (PyInt 11) (PyInt 1986) in
  let b := mkDate (PyInt 22) (PyInt 11) (PyInt 2002) in
  let c := mkDate (PyInt 28) (PyInt 9) (PyInt 2007) in
  __le__ a (DateObj c) = true /\ __eq__ a (DateObj a) = true.
Proof.
  intros a b c. split.
  - apply (proj1 (proj2 (proj2 (le_is_total_preorder a b c))));
      reflexivity.
  - apply (proj2 (proj2 (proj2 (le_is_total_preorder a a a))));
      reflexivity.
Defined.

(** X12: [a > b] is [b < a] when [b] is a date, and [a <= b] is the
    negation of [a > b] exactly when [b] is a date: against any other
    object both are False. *)
Theorem gt_converse_and_le_negation (a : Date) (b : object) :
  __gt__ a b
  = match as_Date b with
    | Some o => __lt__ o (DateObj a)
    | None => false
    end
  /\ (__le__ a b = negb (__gt__ a b) <-> as_Date b <> None).
Proof.
  split.
  - unfold __gt__, __lt__.
    destruct (as_Date b) as [o |]; [| reflexivity].
    cbn [as_Date tuple_gt tuple_lt].
    repeat case_eqb; try lia; rewrite ?Z.gtb_ltb; reflexivity.
  - destruct (as_Date b) as [o |] eqn:Eb.
    + destruct b; try discriminate. injection Eb as ->.
      split; [discriminate |]. intros _.
      destruct (__le__ a (DateObj o)) eqn:L, (__gt__ a (DateObj o)) eqn:G;
        try reflexivity; exfalso; reflect_le; reflect_comparisons;
        unfold key_lt, same_fields in *; lia.
    + split; [| congruence].
      unfold __le__, __gt__. rewrite Eb. discriminate.
Qed.

(** ** Order and day of the year *)

Lemma day_of_year_order_in_year (da db ma mb y n1 n2 : Z) :
  1 <= ma <= 12 -> 1 <= mb <= 12 ->
  days_in_month ma y = Ok n1 -> days_in_month mb y = Ok n2 ->
  1 <= da <= n1 -> 1 <= db <= n2 ->
  let doy m d :=
    py_sum (slice_to
              [31; if leap_year y then 29 else 28; 31; 30; 31; 30;
               31; 31; 30; 31; 30; 31] (m - 1)) + d in
  (ma < mb \/ (ma = mb /\ da < db)) <-> doy ma da < doy mb db.
Proof.
  intros Hma Hmb Hn1 Hn2 Hda Hdb.
  assert (ma = 1 \/ ma = 2 \/ ma = 3 \/ ma = 4 \/ ma = 5 \/ ma = 6
          \/ ma = 7 \/ ma = 8 \/ ma = 9 \/ ma = 10 \/ ma = 11 \/ ma = 12)
    as Ha by lia.
  assert (mb = 1 \/ mb = 2 \/ mb = 3 \/ mb = 4 \/ mb = 5 \/ mb = 6
          \/ mb = 7 \/ mb = 8 \/ mb = 9 \/ mb = 10 \/ mb = 11 \/ mb = 12)
    as Hb by lia.
  unfold slice_to, days_in_month in *.
  destruct (leap_year y);
    repeat (destruct Ha as [-> | Ha]); try subst ma;
    repeat (destruct Hb as [-> | Hb]); try subst mb;
    cbv zeta;
    repeat match goal with
      | |- context [Z.to_nat ?z] =>
          let v := eval vm_compute in (Z.to_nat z) in
          change (Z.to_nat z) with v
      | |- context [Z.ltb ?a ?b] =>
          let v := eval vm_compute in (Z.ltb a b) in
          change (Z.ltb a b) with v
      end;
    cbn -[Z.add] in *; injection Hn1 as <-; injection Hn2 as <-; lia.
Qed.

(** X13: chronological order is the order of the pairs (year, day of the
    year): for constructed dates, [a < b] holds exactly when the year of
    [a] is smaller, or the years are equal and [a] has the smaller
    [day_of_year]. *)
Theorem lt_iff_year_then_day_of_year (a b : Date) :
  constructed a -> constructed b ->
  (__lt__ a (DateObj b) = true
   <-> int_value (_year a) < int_value (_year b)
       \/ (int_value (_year a) = int_value (_year b)
           /\ day_of_year a < day_of_year b)).
Proof.
  intros Ha Hb. apply constructed_valid in Ha, Hb.
  destruct Ha as (Hya & Hma & n1 & Hn1 & Hda).
  destruct Hb as (Hyb & Hmb & n2 & Hn2 & Hdb).
  rewrite lt_unfold. unfold key_lt. cbv zeta.
  destruct (Z.eq_dec (int_value (_year a)) (int_value (_year b)))
    as [Hy | Hy]; [| lia].
  unfold day_of_year. rewrite <- Hy in *.
  pose proof (day_of_year_order_in_year _ _ _ _ _ _ _
                Hma Hmb Hn1 Hn2 Hda Hdb) as Hord.
  cbv zeta in Hord. rewrite <- Hord. lia.
Qed.

Lemma lt_iff_year_then_day_of_year_witness :
  let a := mkDate (PyInt 31) (PyInt 1) (PyInt 2024) in
  let b := mkDate (PyInt 1) (PyInt 2) (PyInt 2024) in
  __lt__ a (DateObj b) = true
  <-> int_value (_year a) < int_value (_year b)
      \/ (int_value (_year a) = int_value (_year b)
          /\ day_of_year a < day_of_year b).
Proof.
  apply (lt_iff_year_then_day_of_year
           (mkDate (PyInt 31) (PyInt 1) (PyInt 2024))
           (mkDate (PyInt 1) (PyInt 2) (PyInt 2024))).
  - exists (Int (PyInt 31)), (Int (PyInt 1)), (Int (PyInt 2024)).
    reflexivity.
  - exists (Int (PyInt 1)), (Int (PyInt 2)), (Int (PyInt 2024)).
    reflexivity.
Defined.

(** X14: within a year the day of the year identifies the date: two
    constructed dates of the same year with the same [day_of_year] are
    [==]. *)
Theorem day_of_year_identifies_date (a b : Date) :
  constructed a -> constructed b ->
  int_value (_year a) = int_value (_year b) ->
  day_of_year a = day_of_year b ->
  __eq__ a (DateObj b) = true.
Proof.
  intros Ha Hb Hy Hdoy.
  pose proof (lt_iff_year_then_day_of_year a b Ha Hb) as Hab.
  pose proof (lt_iff_year_then_day_of_year b a Hb Ha) as Hba.
  rewrite lt_unfold in Hab, Hba. apply eq_unfold.
  unfold key_lt, same_fields in *. cbv zeta in *. lia.
Qed.

Lemma day_of_year_identifies_date_witness :
  __eq__ (mkDate (PyInt 1) (PyInt 3) (PyInt 2023))
         (DateObj (mkDate (PyBool true) (PyInt 3) (PyInt 2023))) = true.
Proof.
  apply day_of_year_identifies_date.
  - exists (Int (PyInt 1)), (Int (PyInt 3)), (Int (PyInt 2023)).
    reflexivity.
  - exists (Int (PyBool true)), (Int (PyInt 3)), (Int (PyInt 2023)).
    reflexivity.
  - reflexivity.
  - reflexivity.
Defined.

Lemma day_of_year_of_eq (d m y n s : Z) :
  1 <= y -> 1 <= m <= 12 -> days_in_month m y = Ok n -> 1 <= d <= n ->
  days_before m y = Ok s ->
  day_of_year_of d m y = Ok (s + d).
Proof.
  intros Hy Hm Hn Hd Hs. unfold day_of_year_of.
  rewrite init_valid
    by (cbn [int_value]; split; [exact Hy |]; split; [exact Hm |];
        exists n; split; [exact Hn | exact Hd]).
  cbn [bind]. f_equal.
  destruct (day_of_year_formula d m y n Hm Hn Hd)
    as ((s' & Hs' & Heq) & _).
  unfold day_of_year. cbn [_day _month _year int_value].
  rewrite Heq. congruence.
Qed.

Ltac month_table E :=
  unfold days_before, months_before;
  repeat match goal with
    | |- context [Z.to_nat ?z] =>
        let v := eval vm_compute in (Z.to_nat z) in
        change (Z.to_nat z) with v
    end;
  unfold days_in_month; cbn -[Z.add]; rewrite ?E; reflexivity.

Ltac ordinal_in k y m c n E :=
  exists (k - c), m;
  rewrite (day_of_year_of_eq (k - c) m y n c);
  [f_equal; lia | lia | lia | month_table E | lia | month_table E].

(** X15: every ordinal of a year is the day of the year of some date:
    for a year of at least 1 and any [k] from 1 to 365, or to 366 when
    [leap_year] holds, some day and month are accepted with that year and
    have [day_of_year] equal to [k]. *)
Theorem day_of_year_reaches_every_ordinal (y k : Z) :
  1 <= y -> 1 <= k <= (if leap_year y then 366 else 365) ->
  exists d m, day_of_year_of d m y = Ok k.
Proof.
  intros Hy Hk. destruct (leap_year y) eqn:E.
  - assert (k <= 31 \/ 31 < k <= 60 \/ 60 < k <= 91 \/ 91 < k <= 121
            \/ 121 < k <= 152 \/ 152 < k <= 182 \/ 182 < k <= 213
            \/ 213 < k <= 244 \/ 244 < k <= 274 \/ 274 < k <= 305
            \/ 305 < k <= 335 \/ 335 < k) as Hcases by lia.
    destruct Hcases as [H | [H | [H | [H | [H | [H | [H | [H | [H | [H |
                       [H | H]]]]]]]]]]].
    + ordinal_in k y 1 0 31 E.
    + ordinal_in k y 2 31 29 E.
    + ordinal_in k y 3 60 31 E.
    + ordinal_in k y 4 91 30 E.
    + ordinal_in k y 5 121 31 E.
    + ordinal_in k y 6 152 30 E.
    + ordinal_in k y 7 182 31 E.
    + ordinal_in k y 8 213 31 E.
    + ordinal_in k y 9 244 30 E.
    + ordinal_in k y 10 274 31 E.
    + ordinal_in k y 11 305 30 E.
    + ordinal_in k y 12 335 31 E.
  - assert (k <= 31 \/ 31 < k <= 59 \/ 59 < k <= 90 \/ 90 < k <= 120
            \/ 120 < k <= 151 \/ 151 < k <= 181 \/ 181 < k <= 212
            \/ 212 < k <= 243 \/ 243 < k <= 273 \/ 273 < k <= 304
            \/ 304 < k <= 334 \/ 334 < k) as Hcases by lia.
    destruct Hcases as [H | [H | [H | [H | [H | [H | [H | [H | [H | [H |
                       [H | H]]]]]]]]]]].
    + ordinal_in k y 1 0 31 E.
    + ordinal_in k y 2 31 28 E.
    + ordinal_in k y 3 59 31 E.
    + ordinal_in k y 4 90 30 E.
    + ordinal_in k y 5 120 31 E.
    + ordinal_in k y 6 151 30 E.
    + ordinal_in k y 7 181 31 E.
    + ordinal_in k y 8 212 31 E.
    + ordinal_in k y 9 243 30 E.
    + ordinal_in k y 10 273 31 E.
    + ordinal_in k y 11 304 30 E.
    + ordinal_in k y 12 334 31 E.
Qed.

Lemma day_of_year_reaches_every_ordinal_witness :
  exists d m, day_of_year_of d m 2024 = Ok 60.
Proof.
  apply (day_of_year_reaches_every_ordinal 2024 60).
  - lia.
  - simpl. lia.
Defined.

(** X16: in every year of at least 1 the first of January has ordinal 1
    and the 31st of December has ordinal 366 when [leap_year] holds for
    the year and 365 otherwise. *)
Theorem day_of_year_first_and_last (y : Z) :
  1 <= y ->
  day_of_year_of 1 1 y = Ok 1
  /\ day_of_year_of 31 12 y = Ok (if leap_year y then 366 else 365).
Proof.
  intros Hy. split.
  - rewrite (day_of_year_of_eq 1 1 y 31 0);
      [reflexivity | lia | lia | reflexivity | lia | reflexivity].
  - destruct (leap_year y) eqn:E.
    + rewrite (day_of_year_of_eq 31 12 y 31 335);
        [reflexivity | lia | lia | month_table E | lia | month_table E].
    + rewrite (day_of_year_of_eq 31 12 y 31 334);
        [reflexivity | lia | lia | month_table E | lia | month_table E].
Qed.

Lemma day_of_year_first_and_last_witness :
  day_of_year_of 1 1 1 = Ok 1
  /\ day_of_year_of 31 12 1 = Ok (if leap_year 1 then 366 else 365).
Proof. apply (day_of_year_first_and_last 1). lia. Defined.

(** ** The text of a date *)

Lemma same_str_same_date_witness :
  __eq__ (mkDate (PyBool true) (PyInt 2) (PyInt 2024))
         (DateObj (mkDate (PyInt 1) (PyInt 2) (PyInt 2024))) = true.
Proof.
  apply same_str_same_date.
  - exists (Int (PyBool true)), (Int (PyInt 2)), (Int (PyInt 2024)).
    reflexivity.
  - exists (Int (PyInt 1)), (Int (PyInt 2)), (Int (PyInt 2024)).
    reflexivity.
  - reflexivity.
Defined.

Lemma same_date_same_str_witness :
  __str__ (mkDate (PyBool true) (PyInt 2) (PyInt 2024))
  = __str__ (mkDate (PyInt 1) (PyInt 2) (PyInt 2024)).
Proof.
  apply (same_date_same_str _ _ 2024 2024).
  - exists (Int (PyBool true)), (Int (PyInt 2)), (Int (PyInt 2024)).
    reflexivity.
  - exists (Int (PyInt 1)), (Int (PyInt 2)), (Int (PyInt 2024)).
    reflexivity.
  - reflexivity.
  - reflexivity.
  - reflexivity.
Defined.

(** The number of digits [str] produces: [j + 1] digits exactly for the
    numbers from [10 ^ j] to [10 ^ (j + 1) - 1]. *)
Lemma digits_onto_length (fuel : nat) :
  forall (n : Z) (acc : string) (j : nat),
    0 <= n < 2 ^ Z.of_nat fuel ->
    (n < 10 ^ Z.of_nat (S j) ->
     (String.length (digits_onto fuel n acc)
      <= S j + String.length acc)%nat)
    /\ (1 <= n -> 10 ^ Z.of_nat j <= n ->
        (S j + String.length acc
         <= String.length (digits_onto fuel n acc))%nat).
Proof.
  induction fuel as [| k IH]; intros n acc j Hn.
  - change (2 ^ Z.of_nat 0) with 1 in Hn. cbn [digits_onto].
    split; intros; lia.
  - rewrite Nat2Z.inj_succ, Z.pow_succ_r in Hn by lia.
    cbn [digits_onto]. destruct (Z.ltb_spec n 10) as [Hlt | Hge].
    + cbn [String.length]. split; [intros; lia |].
      intros H1 Hj. destruct j as [| j']; [lia |]. exfalso.
      rewrite Nat2Z.inj_succ, Z.pow_succ_r in Hj by lia.
      assert (0 < 10 ^ Z.of_nat j') by (apply Z.pow_pos_nonneg; lia).
      lia.
    + assert (0 <= n / 10 < 2 ^ Z.of_nat k) as Hdiv.
      { split; [apply Z.div_pos; lia |].
        apply Z.div_lt_upper_bound; lia. }
      assert (1 <= n / 10) as Hq by (apply Z.div_le_lower_bound; lia).
      set (acc' := String (digit_char (n mod 10)) acc).
      assert (String.length acc' = S (String.length acc)) as Hacc
          by reflexivity.
      split.
      * intros Hup. destruct j as [| j'].
        { change (10 ^ Z.of_nat 1) with 10 in Hup. lia. }
        destruct (IH (n / 10) acc' j' Hdiv) as (Hle & _).
        assert (n / 10 < 10 ^ Z.of_nat (S j')) as Hup'.
        { apply Z.div_lt_upper_bound; [lia |].
          rewrite <- Z.pow_succ_r by lia. rewrite <- Nat2Z.inj_succ.
          exact Hup. }
        specialize (Hle Hup'). lia.
      * intros H1 Hlow. destruct j as [| j'].
        { destruct (IH (n / 10) acc' 0%nat Hdiv) as (_ & Hlen).
          change (10 ^ Z.of_nat 0) with 1 in Hlen.
          specialize (Hlen Hq Hq). lia. }
        destruct (IH (n / 10) acc' j' Hdiv) as (_ & Hlen).
        assert (10 ^ Z.of_nat j' <= n / 10) as Hlow'.
        { apply Z.div_le_lower_bound; [lia |].
          rewrite <- Z.pow_succ_r by lia. rewrite <- Nat2Z.inj_succ.
          exact Hlow. }
        specialize (Hlen Hq Hlow'). lia.
Qed.

Lemma str_nonneg_length (n : Z) (j : nat) :
  1 <= n ->
  (n < 10 ^ Z.of_nat (S j) -> (String.length (str_nonneg n) <= S j)%nat)
  /\ (10 ^ Z.of_nat j <= n -> (S j <= String.length (str_nonneg n))%nat).
Proof.
  intros Hn. assert (0 <= n) as H0 by lia.
  destruct (digits_onto_length _ n "" j (str_nonneg_fuel n H0))
    as (Hle & Hge).
  unfold str_nonneg. cbn [String.length] in *.
  split; [intros H; specialize (Hle H) | intros H; specialize (Hge Hn H)];
    lia.
Qed.

(** X19: the year is not padded: the text of a constructed date with an
    int year has two digits, a slash, two digits, a slash and as many
    characters as the year has digits.  It has the ten characters of
    DD/MM/YYYY exactly when the year is within 1000..9999, and is shorter
    for an earlier year. *)
Theorem str_length_by_year (dt : Date) (n : Z) :
  constructed dt -> _year dt = PyInt n ->
  String.length (__str__ dt) = (6 + String.length (str_int n))%nat
  /\ (String.length (__str__ dt) = 10%nat <-> 1000 <= n <= 9999)
  /\ (n < 1000 -> (7 <= String.length (__str__ dt) < 10)%nat).
Proof.
  intros Hc Hyear. apply constructed_valid in Hc.
  rewrite (str_of_valid dt Hc).
  destruct Hc as (Hy & _). rewrite Hyear in *. cbn [int_value] in Hy.
  unfold two_digits. cbn [append String.length str_obj].
  unfold str_int. destruct (Z.ltb_spec n 0); [lia |].
  destruct (str_nonneg_length n 0 Hy) as (_ & H1).
  destruct (str_nonneg_length n 2 Hy) as (H3 & _).
  destruct (str_nonneg_length n 3 Hy) as (H4 & H4').
  destruct (str_nonneg_length n 4 Hy) as (_ & H5).
  change (10 ^ Z.of_nat 0) with 1 in *.
  change (10 ^ Z.of_nat 3) with 1000 in *.
  change (10 ^ Z.of_nat 4) with 10000 in *.
  split; [reflexivity |]. split; [split |].
  - intros Hlen.
    destruct (Z_lt_dec n 1000) as [Hlt | Hge];
      [specialize (H3 Hlt); lia |].
    destruct (Z_lt_dec n 10000) as [Hlt | Hge'];
      [lia | specialize (H5 ltac:(lia)); lia].
  - intros Hn. specialize (H4 ltac:(lia)). specialize (H4' ltac:(lia)).
    lia.
  - intros Hn. specialize (H3 Hn). specialize (H1 ltac:(lia)). lia.
Qed.

Lemma str_length_by_year_witness :
  String.length (__str__ (mkDate (PyInt 1) (PyInt 1) (PyInt 5)))
  = (6 + String.length (str_int 5))%nat
  /\ (String.length (__str__ (mkDate (PyInt 1) (PyInt 1) (PyInt 5)))
      = 10%nat <-> 1000 <= 5 <= 9999)
  /\ (5 < 1000 ->
      (7 <= String.length (__str__ (mkDate (PyInt 1) (PyInt 1) (PyInt 5)))
       < 10)%nat).
Proof.
  apply (str_length_by_year (mkDate (PyInt 1) (PyInt 1) (PyInt 5)) 5).
  - exists (Int (PyInt 1)), (Int (PyInt 1)), (Int (PyInt 5)). reflexivity.
  - reflexivity.
Defined.

(** ** The module body *)

(** X20: run as a script, the module ends normally after twelve lines:
    the [ValueError] of [Date(31, 2, 2020)] is caught and reported, and
    the comparisons and queries on [data1] and [data2] follow.  Imported,
    it raises [NameError] for [data1] before printing anything, the final
    [print] statements being outside the [__main__] guard. *)
Theorem module_run_as_script_and_imported :
  (exists w,
      run_module true = Returned tt w
      /\ printed w
         = ["data1: 28/09/2007"; "data2: 03/11/1986"; "data3: 22/11/2002";
            "Error creating data4: Day 31 is not valid for month 2 and year 2020.";
            "data1 == data2: False"; "data1 < data2: False";
            "data1 > data2: True"; "data1 <= data2: False";
            "data1 leap year: False"; "data2 leap year: False";
            "Days in month for data1: 30"; "Day of year for data1: 271"]
      /\ lookup_name "data4" (bound w) = None)
  /\ run_module false = Uncaught (NameError "data1") (mkWorld [] []).
Proof.
  split; [| reflexivity].
  eexists. split; [reflexivity |]. split; reflexivity.
Qed.
